(** * Timestamp sources of [packages/utils/src/time.ts]

    A shallow embedding of the module that selects, once at load time,
    between the wall clock ([Date.now]) and the Performance API, and of the
    values it exports.

    Conventions of the embedding.

    - A JavaScript [number] holding a millisecond or second reading is a
      rational ([Q]); arithmetic on readings is exact.  Equalities between
      computed readings are stated with [==] ([Qeq]) unless the two sides
      are syntactically the same computation.  The code computes in
      binary64, so the theorems rely on exactness only where binary64 is
      exact too (integer readings below 2^53 whose quotient by 1000 is an
      integer) and otherwise on the order of readings, which rounding
      preserves; no theorem states an algebraic identity between rounded
      results.
    - [T | undefined] is [option T]; truthiness of such a value is [truthy].
    - An abrupt completion (a thrown error) is the [Throw] constructor of
      [Completion]; [try_catch] is the [try { } catch (_) { }] statement.
    - The clocks are external to the module.  A [World] holds what the
      clocks answer at the instant of one evaluation; a function that reads
      a clock takes the [World] of its call.
    - [isNodeEnv], [dynamicRequire] and [getGlobalObject] are imported from
      [./node] and [./misc]; their results are fields of [Env]. *)

From Stdlib Require Import QArith Qfield Lqa Bool String List.
Import ListNotations.

Local Open Scope Q_scope.
Local Open Scope string_scope.

(** ** JavaScript values and completions *)

Definition number : Type := Q.

Inductive JsError : Type :=
| TypeError (message : string)
| ModuleNotFound (request : string)
| Thrown (payload : string).

Inductive Completion (A : Type) : Type :=
| Normal (a : A)
| Throw (e : JsError).

Arguments Normal {A} a.
Arguments Throw {A} e.

Definition ret {A} (a : A) : Completion A := Normal a.

Definition bind {A B} (c : Completion A) (k : A -> Completion B) : Completion B :=
  match c with
  | Normal a => k a
  | Throw e => Throw e
  end.

Notation "x <- c ;; k" := (bind c (fun x => k))
  (at level 61, c at next level, right associativity).

(** [try { body } catch (e) { handler e }] *)
Definition try_catch {A} (body : Completion A) (handler : JsError -> Completion A)
  : Completion A :=
  match body with
  | Normal a => Normal a
  | Throw e => handler e
  end.

(** ToBoolean on a [number | undefined]: [undefined] and [0] are falsy. *)
Definition truthy (v : option number) : bool :=
  match v with
  | None => false
  | Some n => negb (Qeq_bool n 0)
  end.

(** [a || b] on [number | undefined]. *)
Definition js_or (a b : option number) : option number :=
  if truthy a then a else b.

(** [o && f(o)] where [o] is an object or [undefined]: an object is truthy. *)
Definition js_and_obj {O} (o : option O) (f : O -> option number) : option number :=
  match o with
  | None => None
  | Some obj => f obj
  end.

(** ** The environment *)

(** What the clocks answer at one instant. *)
Record World : Type := {
  Date_now : number;          (* Date.now() *)
  hrtime_now : number         (* the platform's monotonic counter, in ms *)
}.

(** The global [performance] object as a browser provides it; every member
    the module touches may be missing. *)
Module Native.

Record PerformanceTiming : Type := {
  navigationStart : option number
}.

Record Performance : Type := {
  now : option (World -> number);
  timeOrigin : option number;
  timing : option PerformanceTiming
}.

End Native.

Record Window : Type := {
  performance : option Native.Performance
}.

(** [interface Performance] of time.ts. *)
Record Performance : Type := {
  now : World -> number;
  timeOrigin : number
}.

(** [interface TimestampSource] of time.ts. *)
Record TimestampSource : Type := {
  nowSeconds : World -> number
}.

(** The value of [require('perf_hooks')], seen through the cast
    [as { performance: Performance }]. *)
Record PerfHooks : Type := {
  perf_hooks_performance : option Performance
}.

Record Env : Type := {
  isNodeEnv : bool;
  (* dynamicRequire(module, request): throws, or returns a module object,
     or returns undefined *)
  dynamicRequire : string -> Completion (option PerfHooks);
  getGlobalObject : Window
}.

(** ** time.ts *)

Definition dateTimestampSource : TimestampSource :=
  {| nowSeconds := fun w => Date_now w / 1000 |}.

Definition getBrowserPerformance (env : Env) (w : World) : option Performance :=
  match performance (getGlobalObject env) with
  | None => None
  | Some performance =>
      match Native.now performance with
      | None => None
      | Some performance_now =>
          let timeOrigin := Date_now w - performance_now w in
          Some {| now := fun w' => performance_now w';
                  timeOrigin := timeOrigin |}
      end
  end.

Definition getNodePerformance (env : Env) : Completion (option Performance) :=
  try_catch
    (perfHooks <- dynamicRequire env "perf_hooks" ;;
     match perfHooks with
     | None => Throw (TypeError "Cannot read property 'performance' of undefined")
     | Some perfHooks => ret (perf_hooks_performance perfHooks)
     end)
    (fun _ => ret None).

Definition platformPerformance (env : Env) (w : World)
  : Completion (option Performance) :=
  if isNodeEnv env then getNodePerformance env
  else ret (getBrowserPerformance env w).

Definition timestampSource (platformPerformance : option Performance)
  : TimestampSource :=
  match platformPerformance with
  | Some platformPerformance =>
      {| nowSeconds := fun w =>
           (timeOrigin platformPerformance + now platformPerformance w) / 1000 |}
  | None => dateTimestampSource
  end.

Definition browserPerformanceTimeOrigin (env : Env) (w : World) : option number :=
  match performance (getGlobalObject env) with
  | None => None
  | Some performance =>
      if truthy (Native.timeOrigin performance)
      then Native.timeOrigin performance
      else js_or (js_and_obj (Native.timing performance) Native.navigationStart)
                 (Some (Date_now w))
  end.

(** The exported bindings. *)
Module Exports.

Record t : Type := {
  dateTimestampInSeconds : World -> number;
  timestampInSeconds : World -> number;
  timestampWithMs : World -> number;
  usingPerformanceAPI : bool;
  browserPerformanceTimeOrigin : option number
}.

End Exports.

(** Evaluation of the module body.  [wProbe] is the instant at which
    [platformPerformance] is initialised, [wOrigin] the later instant at
    which [browserPerformanceTimeOrigin] is. *)
Definition time_ts (env : Env) (wProbe wOrigin : World) : Completion Exports.t :=
  platformPerformance <- platformPerformance env wProbe ;;
  let timestampSource := timestampSource platformPerformance in
  ret {| Exports.dateTimestampInSeconds := nowSeconds dateTimestampSource;
         Exports.timestampInSeconds := nowSeconds timestampSource;
         Exports.timestampWithMs := nowSeconds timestampSource;
         Exports.usingPerformanceAPI :=
           match platformPerformance with Some _ => true | None => false end;
         Exports.browserPerformanceTimeOrigin :=
           browserPerformanceTimeOrigin env wOrigin |}.

(** ** Sample environments *)

Definition moduleMissing : string -> Completion (option PerfHooks) :=
  fun request => Throw (ModuleNotFound request).

(** A browser whose native [timeOrigin] lies arbitrarily in the past. *)
Definition skewedBrowser : Env :=
  {| isNodeEnv := false;
     dynamicRequire := moduleMissing;
     getGlobalObject :=
       {| performance :=
            Some {| Native.now := Some hrtime_now;
                    Native.timeOrigin := Some 1599999000000;
                    Native.timing := None |} |} |}.

(** A browser without [performance.timeOrigin] but with the legacy field. *)
Definition legacyTimingBrowser (timeOrigin : option number) : Env :=
  {| isNodeEnv := false;
     dynamicRequire := moduleMissing;
     getGlobalObject :=
       {| performance :=
            Some {| Native.now := Some hrtime_now;
                    Native.timeOrigin := timeOrigin;
                    Native.timing :=
                      Some {| Native.navigationStart := Some 1600000000000 |} |} |} |}.

(** A worker: [performance] exists, with neither [timeOrigin] nor [timing]. *)
Definition workerScope : Env :=
  {| isNodeEnv := false;
     dynamicRequire := moduleMissing;
     getGlobalObject :=
       {| performance :=
            Some {| Native.now := Some hrtime_now;
                    Native.timeOrigin := None;
                    Native.timing := None |} |} |}.

(** A [performance] object that has no [now]. *)
Definition nowlessBrowser : Env :=
  {| isNodeEnv := false;
     dynamicRequire := moduleMissing;
     getGlobalObject :=
       {| performance :=
            Some {| Native.now := None;
                    Native.timeOrigin := Some 0;
                    Native.timing :=
                      Some {| Native.navigationStart := Some 0 |} |} |} |}.

(** No [performance] global at all. *)
Definition bareEnv : Env :=
  {| isNodeEnv := false;
     dynamicRequire := moduleMissing;
     getGlobalObject := {| performance := None |} |}.

(** Node.js with [perf_hooks]. *)
Definition nodeWithPerfHooks : Env :=
  {| isNodeEnv := true;
     dynamicRequire := fun _ =>
       Normal (Some {| perf_hooks_performance :=
                         Some {| now := hrtime_now;
                                 timeOrigin := 1699999999000 |} |});
     getGlobalObject := {| performance := None |} |}.

(** An old Node.js: [require('perf_hooks')] throws, while a global
    [performance] with [now] happens to be installed (a polyfill). *)
Definition oldNodeWithPolyfill : Env :=
  {| isNodeEnv := true;
     dynamicRequire := moduleMissing;
     getGlobalObject := getGlobalObject skewedBrowser |}.

Definition atLoad : World :=
  {| Date_now := 1700000000000; hrtime_now := 1000 |}.

Definition later : World :=
  {| Date_now := 1700000000250; hrtime_now := 1250 |}.

(** The wall clock was set back by a minute; the monotonic counter goes on. *)
Definition afterClockSetBack : World :=
  {| Date_now := 1699999940000; hrtime_now := 2000 |}.

(** The machine slept for a minute: the wall clock went on, the monotonic
    counter stood still during the sleep. *)
Definition afterSuspend : World :=
  {| Date_now := 1700000060500; hrtime_now := 1500 |}.

(** Node.js whose [perf_hooks] module has no [performance] member. *)
Definition nodeWithoutPerformance : Env :=
  {| isNodeEnv := true;
     dynamicRequire := fun _ => Normal (Some {| perf_hooks_performance := None |});
     getGlobalObject := {| performance := None |} |}.

(** ** The fallback chain of [browserPerformanceTimeOrigin], as specified

    The chain in words: absent without a global [performance]; else the
    native [timeOrigin] when usable; else the legacy
    [performance.timing.navigationStart] when usable; else the wall clock.
    A field is usable when it is present and non-zero. *)

Definition absent_or_zero (v : option number) : Prop :=
  match v with
  | None => True
  | Some n => n == 0
  end.

Definition present_and_nonzero (v : option number) : option number :=
  match v with
  | None => None
  | Some n => if Qeq_bool n 0 then None else Some n
  end.

Definition legacyNavigationStart (p : Native.Performance) : option number :=
  match Native.timing p with
  | None => None
  | Some timing => Native.navigationStart timing
  end.

Definition timeOrigin_fallback_chain (env : Env) (w : World) : option number :=
  match performance (getGlobalObject env) with
  | None => None
  | Some p =>
      match present_and_nonzero (Native.timeOrigin p) with
      | Some origin => Some origin
      | None =>
          match present_and_nonzero (legacyNavigationStart p) with
          | Some navigationStart => Some navigationStart
          | None => Some (Date_now w)
          end
      end
  end.

(** ** The detection result, as specified: a tri-state *)

Inductive DetectionResult : Type :=
| NoHighResolutionClock
| ServerRuntimeClock (handle : Performance)
| BrowserRuntimeClock (handle : Native.Performance) (performance_now : World -> number).

(** Classify the runtime kind first, then probe only the API of that kind. *)
Definition detect (env : Env) : DetectionResult :=
  if isNodeEnv env then
    match dynamicRequire env "perf_hooks" with
    | Normal (Some {| perf_hooks_performance := Some handle |}) =>
        ServerRuntimeClock handle
    | _ => NoHighResolutionClock
    end
  else
    match performance (getGlobalObject env) with
    | Some p =>
        match Native.now p with
        | Some performance_now => BrowserRuntimeClock p performance_now
        | None => NoHighResolutionClock
        end
    | None => NoHighResolutionClock
    end.

(** The HighResolutionClock constructed for a detection result. *)
Definition adapter (d : DetectionResult) (w : World) : option Performance :=
  match d with
  | NoHighResolutionClock => None
  | ServerRuntimeClock handle => Some handle
  | BrowserRuntimeClock _ performance_now =>
      Some {| now := fun w' => performance_now w';
              timeOrigin := Date_now w - performance_now w |}
  end.

(** Two environments that agree on everything the server probe reads. *)
Definition same_server_view (env env' : Env) : Prop :=
  isNodeEnv env = isNodeEnv env' /\
  dynamicRequire env "perf_hooks" = dynamicRequire env' "perf_hooks".

(** Two environments that agree on everything the browser probe reads. *)
Definition same_browser_view (env env' : Env) : Prop :=
  isNodeEnv env = isNodeEnv env' /\
  getGlobalObject env = getGlobalObject env'.

(** ** Exposure of a high-resolution clock

    [clock_now] is the [now()] of a Performance object the environment
    offers. *)

Definition server_clock (env : Env) (clock_now : World -> number) : Prop :=
  exists m h,
    dynamicRequire env "perf_hooks" = Normal (Some m) /\
    perf_hooks_performance m = Some h /\
    now h = clock_now.

Definition browser_clock (env : Env) (clock_now : World -> number) : Prop :=
  exists p,
    performance (getGlobalObject env) = Some p /\
    Native.now p = Some clock_now.

(** Some API of the environment offers the clock, of whichever kind. *)
Definition exposes_clock (env : Env) (clock_now : World -> number) : Prop :=
  server_clock env clock_now \/ browser_clock env clock_now.

(** The API of the environment's own runtime kind offers the clock:
    [perf_hooks] in a server runtime, the global [performance] otherwise. *)
Definition exposes_clock_of_its_kind
    (env : Env) (clock_now : World -> number) : Prop :=
  if isNodeEnv env then server_clock env clock_now
  else browser_clock env clock_now.

(** ** Basic facts about the embedding *)

Lemma truthy_Some_iff (n : number) : truthy (Some n) = true <-> ~ n == 0.
Proof.
  unfold truthy. rewrite negb_true_iff.
  split.
  - intros Hb Hz. apply Qeq_bool_iff in Hz. congruence.
  - intros Hnz. destruct (Qeq_bool n 0) eqn:E; [|reflexivity].
    apply Qeq_bool_iff in E. contradiction.
Qed.

Lemma falsy_Some_iff (n : number) : truthy (Some n) = false <-> n == 0.
Proof.
  unfold truthy. rewrite negb_false_iff. apply Qeq_bool_iff.
Qed.

Lemma div1000_le (a b : number) : a <= b -> a / 1000 <= b / 1000.
Proof.
  intros H. unfold Qdiv.
  apply Qmult_le_compat_r; [exact H | discriminate].
Qed.


Lemma present_and_nonzero_truthy (v : option number) :
  present_and_nonzero v = if truthy v then v else None.
Proof.
  destruct v as [n|]; simpl; [|reflexivity].
  destruct (Qeq_bool n 0); reflexivity.
Qed.

Lemma absent_or_zero_falsy (v : option number) :
  absent_or_zero v <-> truthy v = false.
Proof.
  destruct v as [n|]; simpl.
  - rewrite negb_false_iff. symmetry. apply Qeq_bool_iff.
  - tauto.
Qed.

(** *** The try/catch of [getNodePerformance] absorbs every throw *)

Lemma try_catch_ret_normal {A} (body : Completion A) (a0 : A) :
  exists a, try_catch body (fun _ => ret a0) = Normal a.
Proof. destruct body as [a|e]; simpl; eauto. Qed.

Lemma getNodePerformance_normal (env : Env) :
  exists r, getNodePerformance env = Normal r.
Proof. unfold getNodePerformance. apply try_catch_ret_normal. Qed.

Lemma getNodePerformance_throw (env : Env) (e : JsError) :
  dynamicRequire env "perf_hooks" = Throw e ->
  getNodePerformance env = Normal None.
Proof. intros H. unfold getNodePerformance. rewrite H. reflexivity. Qed.

Lemma getNodePerformance_undefined (env : Env) :
  dynamicRequire env "perf_hooks" = Normal None ->
  getNodePerformance env = Normal None.
Proof. intros H. unfold getNodePerformance. rewrite H. reflexivity. Qed.

Lemma getNodePerformance_module (env : Env) (m : PerfHooks) :
  dynamicRequire env "perf_hooks" = Normal (Some m) ->
  getNodePerformance env = Normal (perf_hooks_performance m).
Proof. intros H. unfold getNodePerformance. rewrite H. reflexivity. Qed.

Lemma platformPerformance_normal (env : Env) (w : World) :
  exists pp, platformPerformance env w = Normal pp.
Proof.
  unfold platformPerformance. destruct (isNodeEnv env).
  - apply getNodePerformance_normal.
  - eexists. reflexivity.
Qed.

(** *** The module body, once the probe has completed *)

Lemma time_ts_bound (env : Env) (wProbe wOrigin : World) (pp : option Performance) :
  platformPerformance env wProbe = Normal pp ->
  time_ts env wProbe wOrigin =
  Normal {| Exports.dateTimestampInSeconds := nowSeconds dateTimestampSource;
            Exports.timestampInSeconds := nowSeconds (timestampSource pp);
            Exports.timestampWithMs := nowSeconds (timestampSource pp);
            Exports.usingPerformanceAPI :=
              match pp with Some _ => true | None => false end;
            Exports.browserPerformanceTimeOrigin :=
              browserPerformanceTimeOrigin env wOrigin |}.
Proof. intros H. unfold time_ts. rewrite H. reflexivity. Qed.

Lemma time_ts_normal (env : Env) (wProbe wOrigin : World) :
  exists ex, time_ts env wProbe wOrigin = Normal ex.
Proof.
  destruct (platformPerformance_normal env wProbe) as [pp Hpp].
  rewrite (time_ts_bound env wProbe wOrigin pp Hpp). eauto.
Qed.

Lemma platformPerformance_browser
    (env : Env) (w : World)
    (p : Native.Performance) (performance_now : World -> number) :
  isNodeEnv env = false ->
  performance (getGlobalObject env) = Some p ->
  Native.now p = Some performance_now ->
  platformPerformance env w =
  Normal (Some {| now := fun w' => performance_now w';
                  timeOrigin := Date_now w - performance_now w |}).
Proof.
  intros Hkind Hperf Hnow.
  unfold platformPerformance, getBrowserPerformance.
  rewrite Hkind, Hperf, Hnow. reflexivity.
Qed.

Ltac bind_probe H :=
  match type of H with
  | platformPerformance ?env ?w = Normal ?pp =>
      eexists; split; [exact (time_ts_bound env w _ pp H)|]; simpl
  end.

(** ** The wall-clock source *)

(** C7. [dateTimestampInSeconds()] is exactly [Date.now() / 1000], whatever
    the environment: the module always loads and the binding is that
    function; over any sequence of calls each answer is the raw reading of
    that call divided by 1000, so nothing makes the answers monotonic, and
    a reading taken after the wall clock was set back is returned as it
    is, below the answer given before. *)
Theorem dateTimestampInSeconds_raw_wall_clock
    (env : Env) (wProbe wOrigin : World) :
  exists ex,
    time_ts env wProbe wOrigin = Normal ex /\
    (forall w, Exports.dateTimestampInSeconds ex w = Date_now w / 1000) /\
    (forall calls : list World,
        map (Exports.dateTimestampInSeconds ex) calls =
        map (fun w => Date_now w / 1000) calls) /\
    Exports.dateTimestampInSeconds ex afterClockSetBack == 1699999940 /\
    Exports.dateTimestampInSeconds ex afterClockSetBack <
    Exports.dateTimestampInSeconds ex atLoad.
Proof.
  destruct (platformPerformance_normal env wProbe) as [pp Hpp].
  bind_probe Hpp.
  repeat split.
Qed.

(** ** The composed provider *)

(** C9. [timestampWithMs] is the same binding as [timestampInSeconds]:
    the module always loads, the two exports are the same function, and so
    they answer alike at every instant. *)
Theorem timestampWithMs_alias (env : Env) (wProbe wOrigin : World) :
  exists ex,
    time_ts env wProbe wOrigin = Normal ex /\
    Exports.timestampWithMs ex = Exports.timestampInSeconds ex /\
    forall w, Exports.timestampWithMs ex w = Exports.timestampInSeconds ex w.
Proof.
  destruct (platformPerformance_normal env wProbe) as [pp Hpp].
  bind_probe Hpp.
  split; reflexivity.
Qed.

(** C4. When the probe finds no high-resolution clock, the module loads
    with [usingPerformanceAPI = false] and [timestampInSeconds] is the very
    function [dateTimestampInSeconds]; on one wall-clock sample both
    return that sample divided by 1000. *)
Theorem no_clock_falls_back_to_date
    (env : Env) (wProbe wOrigin : World) :
  platformPerformance env wProbe = Normal None ->
  exists ex,
    time_ts env wProbe wOrigin = Normal ex /\
    Exports.usingPerformanceAPI ex = false /\
    Exports.timestampInSeconds ex = Exports.dateTimestampInSeconds ex /\
    forall w,
      Exports.timestampInSeconds ex w = Exports.dateTimestampInSeconds ex w /\
      Exports.timestampInSeconds ex w = Date_now w / 1000.
Proof.
  intros Hpp. bind_probe Hpp.
  repeat split.
Qed.

(** C8. [usingPerformanceAPI] is true exactly when the probe produced a
    Performance handle, and then [timestampInSeconds] is
    [(timeOrigin + now()) / 1000] on that handle; it is false exactly when
    the probe produced none, and then [timestampInSeconds] is the
    wall-clock function. *)
Theorem usingPerformanceAPI_iff_bound (env : Env) (wProbe wOrigin : World) :
  exists ex,
    time_ts env wProbe wOrigin = Normal ex /\
    (Exports.usingPerformanceAPI ex = true <->
     exists h,
       platformPerformance env wProbe = Normal (Some h) /\
       Exports.timestampInSeconds ex = (fun w => (timeOrigin h + now h w) / 1000)) /\
    (Exports.usingPerformanceAPI ex = false <->
     platformPerformance env wProbe = Normal None /\
     Exports.timestampInSeconds ex = (fun w => Date_now w / 1000)).
Proof.
  destruct (platformPerformance_normal env wProbe) as [pp Hpp].
  bind_probe Hpp.
  destruct pp as [h|]; simpl; split; split.
  - intros _. exists h. split; [exact Hpp | reflexivity].
  - reflexivity.
  - discriminate.
  - intros [H _]. rewrite Hpp in H. discriminate.
  - discriminate.
  - intros [h [H _]]. rewrite Hpp in H. discriminate.
  - intros _. split; [exact Hpp | reflexivity].
  - reflexivity.
Qed.

Lemma bound_handle_monotonic
    (env : Env) (wProbe wOrigin : World) (h : Performance) :
  platformPerformance env wProbe = Normal (Some h) ->
  exists ex,
    time_ts env wProbe wOrigin = Normal ex /\
    Exports.usingPerformanceAPI ex = true /\
    forall w1 w2,
      now h w1 <= now h w2 ->
      Exports.timestampInSeconds ex w1 <= Exports.timestampInSeconds ex w2.
Proof.
  intros Hpp. bind_probe Hpp.
  split; [reflexivity|].
  intros w1 w2 Hle.
  apply div1000_le.
  apply Qplus_le_r. exact Hle.
Qed.

Lemma exposes_clock_of_its_kind_exposes
    (env : Env) (clock_now : World -> number) :
  exposes_clock_of_its_kind env clock_now -> exposes_clock env clock_now.
Proof.
  unfold exposes_clock_of_its_kind, exposes_clock.
  destruct (isNodeEnv env); [left | right]; assumption.
Qed.

(** C5, as the code has it.  When the API of the environment's own runtime
    kind exposes a high-resolution clock ([perf_hooks] with a [performance]
    member in a server runtime, a global [performance] with [now]
    otherwise), the module loads with [usingPerformanceAPI = true], and
    [timestampInSeconds] never decreases between two calls whose [now()]
    readings of that clock do not decrease. *)
Theorem timestampInSeconds_monotonic
    (env : Env) (wProbe wOrigin : World) (clock_now : World -> number) :
  exposes_clock_of_its_kind env clock_now ->
  exists ex,
    time_ts env wProbe wOrigin = Normal ex /\
    Exports.usingPerformanceAPI ex = true /\
    forall w1 w2,
      clock_now w1 <= clock_now w2 ->
      Exports.timestampInSeconds ex w1 <= Exports.timestampInSeconds ex w2.
Proof.
  unfold exposes_clock_of_its_kind.
  destruct (isNodeEnv env) eqn:Hkind.
  - intros (m & h & Hreq & Hh & <-).
    apply bound_handle_monotonic.
    unfold platformPerformance. rewrite Hkind.
    rewrite (getNodePerformance_module env m Hreq). rewrite Hh. reflexivity.
  - intros (p & Hperf & Hnow).
    destruct (bound_handle_monotonic env wProbe wOrigin _
                (platformPerformance_browser env wProbe p clock_now
                   Hkind Hperf Hnow))
      as (ex & Hload & Hflag & Hmono).
    exists ex. split; [exact Hload|]. split; [exact Hflag|].
    exact Hmono.
Qed.

(** Counterexample for C5 as stated: it fails where the clock is exposed
    by the API of the other kind.  A server runtime whose [perf_hooks] is missing but whose
    global [performance] has [now] exposes a clock; the module loads with
    [usingPerformanceAPI = false], and [timestampInSeconds] decreases
    between two calls although the clock's readings increase. *)
Lemma exposed_clock_of_other_kind_unused :
  exposes_clock oldNodeWithPolyfill hrtime_now /\
  exists ex,
    time_ts oldNodeWithPolyfill atLoad later = Normal ex /\
    Exports.usingPerformanceAPI ex = false /\
    hrtime_now atLoad <= hrtime_now afterClockSetBack /\
    Exports.timestampInSeconds ex afterClockSetBack <
    Exports.timestampInSeconds ex atLoad.
Proof.
  split.
  - right. eexists. split; reflexivity.
  - eexists. split; [reflexivity|]. simpl.
    split; [reflexivity|]. split; [discriminate | reflexivity].
Qed.

(** ** The browser adapter *)

(** C1. In a browser whose global [performance] has [now], the adapter's
    origin is [Date.now() - performance.now()], both read when the adapter
    is built, whatever the native [timeOrigin] is; [timestampInSeconds]
    adds the current [now()] to that origin and divides by 1000.  With
    [now() = 1000] and a wall clock of 1,700,000,000,000 at construction
    the origin is 1,699,999,999,000, and a call made while [now()] is still
    1000 returns 1,700,000,000. *)
Theorem browser_origin_from_wall_clock
    (env : Env) (wProbe wOrigin : World)
    (p : Native.Performance) (performance_now : World -> number) :
  isNodeEnv env = false ->
  performance (getGlobalObject env) = Some p ->
  Native.now p = Some performance_now ->
  exists h ex,
    platformPerformance env wProbe = Normal (Some h) /\
    time_ts env wProbe wOrigin = Normal ex /\
    timeOrigin h = Date_now wProbe - performance_now wProbe /\
    (forall w,
        Exports.timestampInSeconds ex w =
        (timeOrigin h + performance_now w) / 1000) /\
    (performance_now wProbe == 1000 ->
     Date_now wProbe == 1700000000000 ->
     timeOrigin h == 1699999999000 /\
     forall w,
       performance_now w == 1000 ->
       Exports.timestampInSeconds ex w == 1700000000).
Proof.
  intros Hnode Hperf Hnow.
  assert (Hpp : platformPerformance env wProbe =
                Normal (Some {| now := fun w' => performance_now w';
                                timeOrigin := Date_now wProbe - performance_now wProbe |})).
  { unfold platformPerformance, getBrowserPerformance.
    rewrite Hnode, Hperf, Hnow. reflexivity. }
  eexists. eexists.
  split; [exact Hpp|].
  split; [exact (time_ts_bound env wProbe wOrigin _ Hpp)|].
  simpl.
  split; [reflexivity|].
  split; [reflexivity|].
  intros H1000 Hwall.
  assert (Horigin : Date_now wProbe - performance_now wProbe == 1699999999000).
  { rewrite H1000, Hwall. reflexivity. }
  split; [exact Horigin|].
  intros w Hw. rewrite Horigin, Hw. reflexivity.
Qed.

(** ** The browser time origin *)

(** C2. [browserPerformanceTimeOrigin] follows the fallback chain: absent
    without a global [performance]; else the native [timeOrigin] when
    present and non-zero; else the legacy [timing.navigationStart] (when
    present and non-zero); else the wall clock read at evaluation.  With a
    native [timeOrigin] of 0 and a [navigationStart] of 1,600,000,000,000
    the result is 1,600,000,000,000; with both absent it is the wall-clock
    reading. *)
Theorem browserPerformanceTimeOrigin_chain (env : Env) (w : World) :
  browserPerformanceTimeOrigin env w = timeOrigin_fallback_chain env w /\
  (performance (getGlobalObject env) = None ->
   browserPerformanceTimeOrigin env w = None) /\
  (forall p,
      performance (getGlobalObject env) = Some p ->
      (forall origin,
          Native.timeOrigin p = Some origin -> ~ origin == 0 ->
          browserPerformanceTimeOrigin env w = Some origin) /\
      (forall timing,
          Native.timeOrigin p = Some 0 ->
          Native.timing p = Some timing ->
          Native.navigationStart timing = Some 1600000000000 ->
          browserPerformanceTimeOrigin env w = Some 1600000000000) /\
      (Native.timeOrigin p = None ->
       legacyNavigationStart p = None ->
       browserPerformanceTimeOrigin env w = Some (Date_now w))).
Proof.
  unfold browserPerformanceTimeOrigin, timeOrigin_fallback_chain, js_or.
  destruct (performance (getGlobalObject env)) as [perf|].
  2:{ repeat split; intros; discriminate. }
  split.
  { rewrite !present_and_nonzero_truthy.
    unfold js_and_obj, legacyNavigationStart.
    destruct (truthy (Native.timeOrigin perf)) eqn:Eo.
    - destruct (Native.timeOrigin perf); [reflexivity | discriminate].
    - destruct (Native.timing perf) as [tm|]; [|reflexivity].
      destruct (truthy (Native.navigationStart tm)) eqn:En; [|reflexivity].
      destruct (Native.navigationStart tm); [reflexivity | discriminate]. }
  split; [discriminate|].
  intros p [= <-].
  split; [|split].
  - intros origin Ho Hnz. rewrite Ho.
    apply truthy_Some_iff in Hnz. rewrite Hnz. reflexivity.
  - intros tm Ho Htm Hnav. rewrite Ho, Htm. simpl. rewrite Hnav. reflexivity.
  - intros Ho Hleg. rewrite Ho. simpl.
    unfold legacyNavigationStart in Hleg. unfold js_and_obj.
    destruct (Native.timing perf) as [tm|]; [|reflexivity].
    rewrite Hleg. reflexivity.
Qed.

(** C10. When the global [performance] exists, its [timeOrigin] is absent
    or zero, and [performance.timing] is absent or its [navigationStart]
    is absent or zero, [browserPerformanceTimeOrigin] is the wall-clock
    reading: a zero [navigationStart] counts as an absent one. *)
Theorem zero_navigationStart_falls_to_wall_clock
    (env : Env) (w : World) (p : Native.Performance) :
  performance (getGlobalObject env) = Some p ->
  absent_or_zero (Native.timeOrigin p) ->
  absent_or_zero (legacyNavigationStart p) ->
  browserPerformanceTimeOrigin env w = Some (Date_now w).
Proof.
  intros Hperf Ho Hnav.
  apply absent_or_zero_falsy in Ho, Hnav.
  unfold browserPerformanceTimeOrigin, js_or.
  rewrite Hperf, Ho.
  unfold legacyNavigationStart in Hnav. unfold js_and_obj.
  destruct (Native.timing p) as [tm|]; rewrite Hnav; reflexivity.
Qed.

(** ** The capability probe *)

Lemma platformPerformance_detect (env : Env) (w : World) :
  platformPerformance env w = Normal (adapter (detect env) w).
Proof.
  unfold platformPerformance, detect, getNodePerformance, getBrowserPerformance.
  destruct (isNodeEnv env).
  - destruct (dynamicRequire env "perf_hooks") as [[[[h|]]|]|e]; reflexivity.
  - destruct (performance (getGlobalObject env)) as [p|]; [|reflexivity].
    destruct (Native.now p); reflexivity.
Qed.

(** C3. Detection never throws.  When acquiring the server module throws
    an error, whichever it is, [getNodePerformance] completes normally with
    [undefined]; in a server runtime the probe then yields no handle and
    the module loads with [timestampInSeconds] bound to the wall-clock
    function.  In every environment the server probe and the module load
    complete normally, so every export is a number-valued function. *)
Theorem detection_never_throws
    (env : Env) (wProbe wOrigin : World) (e : JsError) :
  dynamicRequire env "perf_hooks" = Throw e ->
  getNodePerformance env = Normal None /\
  (isNodeEnv env = true ->
   platformPerformance env wProbe = Normal None /\
   exists ex,
     time_ts env wProbe wOrigin = Normal ex /\
     Exports.usingPerformanceAPI ex = false /\
     Exports.timestampInSeconds ex = Exports.dateTimestampInSeconds ex /\
     Exports.timestampInSeconds ex = (fun w => Date_now w / 1000)) /\
  (forall env' w w',
      (exists r, getNodePerformance env' = Normal r) /\
      (exists pp, platformPerformance env' w = Normal pp) /\
      (exists ex', time_ts env' w w' = Normal ex')).
Proof.
  intros Hthrow.
  pose proof (getNodePerformance_throw env e Hthrow) as Hnode.
  split; [exact Hnode|]. split.
  - intros Hkind.
    assert (Hpp : platformPerformance env wProbe = Normal None).
    { unfold platformPerformance. rewrite Hkind. exact Hnode. }
    split; [exact Hpp|].
    bind_probe Hpp. repeat split.
  - intros env' w w'. split; [|split].
    + apply getNodePerformance_normal.
    + apply platformPerformance_normal.
    + apply time_ts_normal.
Qed.

(** C6. The probe classifies the runtime kind first and then asks only
    the API of that kind; its result is the adapter of one of three
    detection results.  In a server runtime only the server acquisition
    counts: the result is that of [getNodePerformance], it is the same in
    any environment with the same acquisition, and a failed acquisition
    gives no clock even where a global [performance] with [now] exists.
    Otherwise only the browser global counts: the result is that of
    [getBrowserPerformance], it is the same in any environment with the
    same global object, and a [performance] without [now] gives no clock. *)
Theorem probe_by_runtime_kind (env : Env) (w : World) :
  platformPerformance env w = Normal (adapter (detect env) w) /\
  (isNodeEnv env = true ->
   platformPerformance env w = getNodePerformance env /\
   (forall env' w',
       same_server_view env env' ->
       platformPerformance env' w' = platformPerformance env w) /\
   (forall e,
       dynamicRequire env "perf_hooks" = Throw e ->
       platformPerformance env w = Normal None) /\
   (dynamicRequire env "perf_hooks" = Normal None ->
    platformPerformance env w = Normal None)) /\
  (isNodeEnv env = false ->
   platformPerformance env w = Normal (getBrowserPerformance env w) /\
   (forall env',
       same_browser_view env env' ->
       platformPerformance env' w = platformPerformance env w) /\
   (performance (getGlobalObject env) = None ->
    platformPerformance env w = Normal None) /\
   (forall p,
       performance (getGlobalObject env) = Some p ->
       Native.now p = None ->
       platformPerformance env w = Normal None)) /\
  (platformPerformance oldNodeWithPolyfill w = Normal None /\
   getBrowserPerformance oldNodeWithPolyfill w <> None).
Proof.
  split; [apply platformPerformance_detect|].
  split; [|split].
  - intros Hkind. unfold platformPerformance at 1 3 4 5. rewrite Hkind.
    split; [reflexivity|]. split; [|split].
    + intros env' w' [Hk Hreq]. unfold platformPerformance, getNodePerformance.
      rewrite <- Hk, Hkind, Hreq. reflexivity.
    + intros e He. exact (getNodePerformance_throw env e He).
    + exact (getNodePerformance_undefined env).
  - intros Hkind. unfold platformPerformance at 1 3 4 5. rewrite Hkind.
    split; [reflexivity|]. split; [|split].
    + intros env' [Hk Hglob]. unfold platformPerformance, getBrowserPerformance.
      rewrite <- Hk, Hkind, Hglob. reflexivity.
    + intros Hp. unfold getBrowserPerformance. rewrite Hp. reflexivity.
    + intros p Hp Hnow. unfold getBrowserPerformance. rewrite Hp, Hnow. reflexivity.
  - split; [reflexivity | discriminate].
Qed.

(** ** The theorems at the sample environments *)

Lemma browser_origin_from_wall_clock_witness :
  isNodeEnv skewedBrowser = false /\
  hrtime_now atLoad == 1000 /\
  Date_now atLoad == 1700000000000 /\
  exists h ex,
    platformPerformance skewedBrowser atLoad = Normal (Some h) /\
    time_ts skewedBrowser atLoad later = Normal ex /\
    timeOrigin h == 1699999999000 /\
    Exports.timestampInSeconds ex atLoad == 1700000000.
Proof.
  split; [reflexivity|]. split; [reflexivity|]. split; [reflexivity|].
  destruct (browser_origin_from_wall_clock skewedBrowser atLoad later
              _ hrtime_now eq_refl eq_refl eq_refl)
    as (h & ex & Hpp & Hload & _ & _ & Hmock).
  exists h, ex.
  destruct (Hmock (Qeq_refl _) (Qeq_refl _)) as [Horigin Hcall].
  split; [exact Hpp|]. split; [exact Hload|]. split; [exact Horigin|].
  apply Hcall. reflexivity.
Defined.

Lemma browserPerformanceTimeOrigin_chain_witness :
  browserPerformanceTimeOrigin (legacyTimingBrowser (Some 0)) atLoad
  = Some 1600000000000 /\
  browserPerformanceTimeOrigin workerScope atLoad = Some 1700000000000 /\
  browserPerformanceTimeOrigin bareEnv atLoad = None.
Proof.
  split; [|split].
  - destruct (browserPerformanceTimeOrigin_chain (legacyTimingBrowser (Some 0)) atLoad)
      as (_ & _ & Hcases).
    destruct (Hcases _ eq_refl) as (_ & Hlegacy & _).
    exact (Hlegacy _ eq_refl eq_refl eq_refl).
  - destruct (browserPerformanceTimeOrigin_chain workerScope atLoad)
      as (_ & _ & Hcases).
    destruct (Hcases _ eq_refl) as (_ & _ & Hwall).
    exact (Hwall eq_refl eq_refl).
  - destruct (browserPerformanceTimeOrigin_chain bareEnv atLoad) as (_ & Habsent & _).
    exact (Habsent eq_refl).
Defined.

Lemma zero_navigationStart_falls_to_wall_clock_witness :
  absent_or_zero (Some 0) /\
  browserPerformanceTimeOrigin nowlessBrowser later = Some 1700000000250.
Proof.
  split; [reflexivity|].
  apply (zero_navigationStart_falls_to_wall_clock nowlessBrowser later _ eq_refl);
    reflexivity.
Defined.

Lemma detection_never_throws_witness :
  dynamicRequire oldNodeWithPolyfill "perf_hooks"
  = Throw (ModuleNotFound "perf_hooks") /\
  isNodeEnv oldNodeWithPolyfill = true /\
  getNodePerformance oldNodeWithPolyfill = Normal None /\
  exists ex,
    time_ts oldNodeWithPolyfill atLoad later = Normal ex /\
    Exports.usingPerformanceAPI ex = false /\
    Exports.timestampInSeconds ex afterClockSetBack == 1699999940.
Proof.
  split; [reflexivity|]. split; [reflexivity|].
  destruct (detection_never_throws oldNodeWithPolyfill atLoad later _ eq_refl)
    as (Hnode & Hserver & _).
  split; [exact Hnode|].
  destruct (Hserver eq_refl) as (_ & ex & Hload & Hflag & _ & Hwall).
  exists ex. split; [exact Hload|]. split; [exact Hflag|].
  rewrite Hwall. reflexivity.
Defined.

Lemma no_clock_falls_back_to_date_witness :
  platformPerformance bareEnv atLoad = Normal None /\
  exists ex,
    time_ts bareEnv atLoad later = Normal ex /\
    Exports.usingPerformanceAPI ex = false /\
    Exports.timestampInSeconds ex later = Exports.dateTimestampInSeconds ex later.
Proof.
  split; [reflexivity|].
  destruct (no_clock_falls_back_to_date bareEnv atLoad later eq_refl)
    as (ex & Hload & Hflag & _ & Hsame).
  exists ex. split; [exact Hload|]. split; [exact Hflag|].
  exact (proj1 (Hsame later)).
Defined.

Lemma usingPerformanceAPI_iff_bound_witness :
  exists ex,
    time_ts skewedBrowser atLoad later = Normal ex /\
    Exports.usingPerformanceAPI ex = true /\
    exists h,
      platformPerformance skewedBrowser atLoad = Normal (Some h) /\
      Exports.timestampInSeconds ex = (fun w => (timeOrigin h + now h w) / 1000).
Proof.
  destruct (usingPerformanceAPI_iff_bound skewedBrowser atLoad later)
    as (ex & Hload & Hbound & Hunbound).
  exists ex. split; [exact Hload|].
  destruct (Exports.usingPerformanceAPI ex).
  - split; [reflexivity|]. exact (proj1 Hbound eq_refl).
  - destruct (proj1 Hunbound eq_refl) as [Hnone _]. discriminate Hnone.
Defined.

Lemma timestampInSeconds_monotonic_witness :
  exposes_clock_of_its_kind skewedBrowser hrtime_now /\
  hrtime_now atLoad <= hrtime_now afterClockSetBack /\
  Date_now afterClockSetBack < Date_now atLoad /\
  exists ex,
    time_ts skewedBrowser atLoad later = Normal ex /\
    Exports.usingPerformanceAPI ex = true /\
    Exports.timestampInSeconds ex atLoad <=
    Exports.timestampInSeconds ex afterClockSetBack.
Proof.
  assert (Hexposed : exposes_clock_of_its_kind skewedBrowser hrtime_now).
  { eexists. split; reflexivity. }
  split; [exact Hexposed|].
  split; [discriminate|]. split; [reflexivity|].
  destruct (timestampInSeconds_monotonic skewedBrowser atLoad later
              hrtime_now Hexposed)
    as (ex & Hload & Hflag & Hmono).
  exists ex. split; [exact Hload|]. split; [exact Hflag|].
  apply Hmono. discriminate.
Defined.

Lemma probe_by_runtime_kind_witness :
  isNodeEnv oldNodeWithPolyfill = true /\
  platformPerformance oldNodeWithPolyfill atLoad = Normal None /\
  isNodeEnv nowlessBrowser = false /\
  platformPerformance nowlessBrowser atLoad = Normal None.
Proof.
  split; [reflexivity|]. split; [|split; [reflexivity|]].
  - destruct (probe_by_runtime_kind oldNodeWithPolyfill atLoad)
      as (_ & Hserver & _).
    destruct (Hserver eq_refl) as (_ & _ & Hfail & _).
    exact (Hfail _ eq_refl).
  - destruct (probe_by_runtime_kind nowlessBrowser atLoad)
      as (_ & _ & Hbrowser & _).
    destruct (Hbrowser eq_refl) as (_ & _ & _ & Hnow).
    exact (Hnow _ eq_refl eq_refl).
Defined.

(** ** Further properties of the browser time origin *)

Lemma truthy_is_Some (v : option number) :
  truthy v = true -> exists n, v = Some n /\ ~ n == 0.
Proof.
  destruct v as [n|]; [|discriminate].
  intros H. exists n. split; [reflexivity|]. apply truthy_Some_iff. exact H.
Qed.

(** X3. [browserPerformanceTimeOrigin] is [undefined] exactly when there
    is no global [performance] object; whether the runtime is a server,
    and whether [performance] has [now], plays no part. *)
Theorem browserPerformanceTimeOrigin_absent_iff (env : Env) (w : World) :
  browserPerformanceTimeOrigin env w = None <->
  performance (getGlobalObject env) = None.
Proof.
  unfold browserPerformanceTimeOrigin, js_or.
  destruct (performance (getGlobalObject env)) as [p|]; [|tauto].
  split; [|discriminate].
  destruct (truthy (Native.timeOrigin p)) eqn:Eo.
  - destruct (truthy_is_Some _ Eo) as (n & -> & _). discriminate.
  - destruct (truthy (js_and_obj (Native.timing p) Native.navigationStart)) eqn:En.
    + destruct (truthy_is_Some _ En) as (n & -> & _). discriminate.
    + discriminate.
Qed.

Lemma browserPerformanceTimeOrigin_number
    (env : Env) (w : World) (p : Native.Performance) :
  performance (getGlobalObject env) = Some p ->
  exists n, browserPerformanceTimeOrigin env w = Some n.
Proof.
  intros Hperf.
  destruct (browserPerformanceTimeOrigin env w) as [n|] eqn:E; [eauto|].
  unfold browserPerformanceTimeOrigin, js_or in E. rewrite Hperf in E.
  destruct (truthy (Native.timeOrigin p)) eqn:Eo.
  - destruct (truthy_is_Some _ Eo) as (n & Hn & _). congruence.
  - destruct (truthy (js_and_obj (Native.timing p) Native.navigationStart)) eqn:En.
    + destruct (truthy_is_Some _ En) as (n & Hn & _). congruence.
    + discriminate.
Qed.

(** X4. When a global [performance] exists, [browserPerformanceTimeOrigin]
    is a number, and that number is zero only if the wall clock itself
    reads zero: a zero reported by the browser is never passed on. *)
Theorem browserPerformanceTimeOrigin_zero_only_from_clock
    (env : Env) (w : World) (p : Native.Performance) :
  performance (getGlobalObject env) = Some p ->
  exists n,
    browserPerformanceTimeOrigin env w = Some n /\
    (n == 0 -> Date_now w == 0).
Proof.
  intros Hperf. unfold browserPerformanceTimeOrigin, js_or. rewrite Hperf.
  destruct (truthy (Native.timeOrigin p)) eqn:Eo.
  - destruct (truthy_is_Some _ Eo) as (n & -> & Hnz).
    exists n. split; [reflexivity | intros Hz; contradiction].
  - destruct (truthy (js_and_obj (Native.timing p) Native.navigationStart)) eqn:En.
    + destruct (truthy_is_Some _ En) as (n & -> & Hnz).
      exists n. split; [reflexivity | intros Hz; contradiction].
    + exists (Date_now w). split; [reflexivity | tauto].
Qed.

(** X5. Unless both the native [timeOrigin] and the legacy
    [navigationStart] are absent or zero, [browserPerformanceTimeOrigin]
    depends on the global object alone: the instant of evaluation, the
    runtime kind and the module loader do not change it. *)
Theorem browserPerformanceTimeOrigin_fixed_by_browser
    (env env' : Env) (w w' : World) (p : Native.Performance) :
  getGlobalObject env' = getGlobalObject env ->
  performance (getGlobalObject env) = Some p ->
  ~ (absent_or_zero (Native.timeOrigin p) /\
     absent_or_zero (legacyNavigationStart p)) ->
  browserPerformanceTimeOrigin env' w' = browserPerformanceTimeOrigin env w.
Proof.
  intros Hglob Hperf Husable.
  rewrite !absent_or_zero_falsy in Husable.
  unfold browserPerformanceTimeOrigin, js_or. rewrite Hglob, Hperf.
  destruct (truthy (Native.timeOrigin p)) eqn:Eo; [reflexivity|].
  change (js_and_obj (Native.timing p) Native.navigationStart)
    with (legacyNavigationStart p).
  destruct (truthy (legacyNavigationStart p)) eqn:En; [reflexivity|].
  exfalso. apply Husable. split; reflexivity.
Qed.

(** X6. In a browser runtime, whenever [usingPerformanceAPI] is true the
    exported [browserPerformanceTimeOrigin] is a number.  In a server
    runtime this fails: with [perf_hooks] and no global [performance] the
    flag is true and the origin is [undefined]. *)
Theorem browser_flag_implies_origin (env : Env) (wProbe wOrigin : World) :
  isNodeEnv env = false ->
  (exists ex,
      time_ts env wProbe wOrigin = Normal ex /\
      (Exports.usingPerformanceAPI ex = true ->
       exists n, Exports.browserPerformanceTimeOrigin ex = Some n)) /\
  (exists ex',
      time_ts nodeWithPerfHooks wProbe wOrigin = Normal ex' /\
      Exports.usingPerformanceAPI ex' = true /\
      Exports.browserPerformanceTimeOrigin ex' = None).
Proof.
  intros Hkind. split.
  - destruct (platformPerformance_normal env wProbe) as [pp Hpp].
    bind_probe Hpp.
    intros Hflag.
    destruct (performance (getGlobalObject env)) as [p|] eqn:Hperf.
    + destruct (browserPerformanceTimeOrigin_number env wOrigin p Hperf)
        as (n & Hn).
      exists n. exact Hn.
    + unfold platformPerformance, getBrowserPerformance in Hpp.
      rewrite Hkind, Hperf in Hpp. injection Hpp as <-. discriminate.
  - eexists. split; [reflexivity|]. split; reflexivity.
Qed.

(** ** Further properties of the probe *)

(** X7. [getNodePerformance] returns a handle exactly when
    [require('perf_hooks')] returns a module whose [performance] member is
    that handle, and [undefined] exactly when the acquisition throws,
    returns [undefined], or returns a module without [performance]. *)
Theorem getNodePerformance_result (env : Env) :
  (forall h,
      getNodePerformance env = Normal (Some h) <->
      exists m,
        dynamicRequire env "perf_hooks" = Normal (Some m) /\
        perf_hooks_performance m = Some h) /\
  (getNodePerformance env = Normal None <->
   (exists e, dynamicRequire env "perf_hooks" = Throw e) \/
   dynamicRequire env "perf_hooks" = Normal None \/
   (exists m,
       dynamicRequire env "perf_hooks" = Normal (Some m) /\
       perf_hooks_performance m = None)).
Proof.
  unfold getNodePerformance.
  destruct (dynamicRequire env "perf_hooks") as [[m|]|e]; simpl.
  - split.
    + intros h. split.
      * intros [= Hh]. exists m. split; [reflexivity | exact Hh].
      * intros (m' & [= <-] & Hh). rewrite Hh. reflexivity.
    + split.
      * intros [= Hm]. right. right. exists m. split; [reflexivity | exact Hm].
      * intros [[e He] | [Hu | (m' & [= <-] & Hm)]];
          [discriminate | discriminate | rewrite Hm; reflexivity].
  - split.
    + intros h. split; [discriminate | intros (m & Hm & _); discriminate].
    + split; [intros _; right; left; reflexivity | reflexivity].
  - split.
    + intros h. split; [discriminate | intros (m & Hm & _); discriminate].
    + split; [intros _; left; exists e; reflexivity | reflexivity].
Qed.

(** X8. Which source is bound depends on the environment only, not on the
    instant the module is loaded: two loads in one environment give the
    same [usingPerformanceAPI], and, in a server runtime or when no
    high-resolution clock is bound, the same [timestampInSeconds]. *)
Theorem source_selection_ignores_load_instant
    (env : Env) (wProbe1 wOrigin1 wProbe2 wOrigin2 : World) :
  exists ex1 ex2,
    time_ts env wProbe1 wOrigin1 = Normal ex1 /\
    time_ts env wProbe2 wOrigin2 = Normal ex2 /\
    Exports.usingPerformanceAPI ex1 = Exports.usingPerformanceAPI ex2 /\
    (isNodeEnv env = true \/ Exports.usingPerformanceAPI ex1 = false ->
     Exports.timestampInSeconds ex1 = Exports.timestampInSeconds ex2).
Proof.
  destruct (isNodeEnv env) eqn:Hkind.
  - destruct (getNodePerformance_normal env) as [pp Hnode].
    assert (H1 : platformPerformance env wProbe1 = Normal pp)
      by (unfold platformPerformance; rewrite Hkind; exact Hnode).
    assert (H2 : platformPerformance env wProbe2 = Normal pp)
      by (unfold platformPerformance; rewrite Hkind; exact Hnode).
    eexists. eexists.
    split; [exact (time_ts_bound env wProbe1 wOrigin1 pp H1)|].
    split; [exact (time_ts_bound env wProbe2 wOrigin2 pp H2)|].
    simpl. split; reflexivity.
  - eexists. eexists.
    split; [apply time_ts_bound; unfold platformPerformance; rewrite Hkind;
            reflexivity|].
    split; [apply time_ts_bound; unfold platformPerformance; rewrite Hkind;
            reflexivity|].
    unfold getBrowserPerformance. simpl.
    destruct (performance (getGlobalObject env)) as [p|]; simpl.
    + destruct (Native.now p); simpl.
      * split; [reflexivity|]. intros [H|H]; discriminate.
      * split; reflexivity.
    + split; reflexivity.
Qed.

(** X9. In a server runtime whose [perf_hooks] module carries a
    [performance] handle, that handle is bound unchanged: its own
    [timeOrigin] is used, [Date.now()] is not read, and
    [timestampInSeconds] is [(timeOrigin + now()) / 1000] on it, whatever
    global [performance] object exists. *)
Theorem server_handle_bound_unchanged
    (env : Env) (wProbe wOrigin : World) (m : PerfHooks) (h : Performance) :
  isNodeEnv env = true ->
  dynamicRequire env "perf_hooks" = Normal (Some m) ->
  perf_hooks_performance m = Some h ->
  platformPerformance env wProbe = Normal (Some h) /\
  exists ex,
    time_ts env wProbe wOrigin = Normal ex /\
    Exports.usingPerformanceAPI ex = true /\
    Exports.timestampInSeconds ex = (fun w => (timeOrigin h + now h w) / 1000).
Proof.
  intros Hkind Hreq Hh.
  assert (Hpp : platformPerformance env wProbe = Normal (Some h)).
  { unfold platformPerformance. rewrite Hkind.
    rewrite (getNodePerformance_module env m Hreq). rewrite Hh. reflexivity. }
  split; [exact Hpp|].
  bind_probe Hpp. split; reflexivity.
Qed.

(** ** The further properties at the sample environments *)

Lemma browserPerformanceTimeOrigin_absent_iff_witness :
  performance (getGlobalObject bareEnv) = None /\
  browserPerformanceTimeOrigin bareEnv atLoad = None /\
  performance (getGlobalObject oldNodeWithPolyfill) <> None /\
  browserPerformanceTimeOrigin oldNodeWithPolyfill atLoad <> None.
Proof.
  split; [reflexivity|].
  split; [exact (proj2 (browserPerformanceTimeOrigin_absent_iff bareEnv atLoad) eq_refl)|].
  split; [discriminate|].
  intros Habsent.
  apply (browserPerformanceTimeOrigin_absent_iff oldNodeWithPolyfill atLoad) in Habsent.
  discriminate Habsent.
Defined.

Lemma browserPerformanceTimeOrigin_zero_only_from_clock_witness :
  exists n,
    browserPerformanceTimeOrigin nowlessBrowser later = Some n /\
    ~ n == 0.
Proof.
  destruct (browserPerformanceTimeOrigin_zero_only_from_clock nowlessBrowser later
              _ eq_refl) as (n & Hn & Hzero).
  exists n. split; [exact Hn|].
  intros Hz. specialize (Hzero Hz). discriminate Hzero.
Defined.

Lemma browserPerformanceTimeOrigin_fixed_by_browser_witness :
  getGlobalObject oldNodeWithPolyfill = getGlobalObject skewedBrowser /\
  browserPerformanceTimeOrigin oldNodeWithPolyfill afterSuspend =
  browserPerformanceTimeOrigin skewedBrowser atLoad.
Proof.
  split; [reflexivity|].
  apply (browserPerformanceTimeOrigin_fixed_by_browser
           skewedBrowser oldNodeWithPolyfill atLoad afterSuspend _ eq_refl eq_refl).
  intros [Hzero _]. discriminate Hzero.
Defined.

Lemma browser_flag_implies_origin_witness :
  isNodeEnv workerScope = false /\
  exists ex,
    time_ts workerScope atLoad later = Normal ex /\
    (Exports.usingPerformanceAPI ex = true ->
     exists n, Exports.browserPerformanceTimeOrigin ex = Some n).
Proof.
  split; [reflexivity|].
  exact (proj1 (browser_flag_implies_origin workerScope atLoad later eq_refl)).
Defined.

Lemma getNodePerformance_result_witness :
  getNodePerformance nodeWithPerfHooks
  = Normal (Some {| now := hrtime_now; timeOrigin := 1699999999000 |}) /\
  getNodePerformance nodeWithoutPerformance = Normal None.
Proof.
  split.
  - apply (proj1 (getNodePerformance_result nodeWithPerfHooks)).
    eexists. split; reflexivity.
  - apply (proj2 (getNodePerformance_result nodeWithoutPerformance)).
    right. right. eexists. split; reflexivity.
Defined.

Lemma source_selection_ignores_load_instant_witness :
  isNodeEnv nodeWithPerfHooks = true /\
  exists ex1 ex2,
    time_ts nodeWithPerfHooks atLoad later = Normal ex1 /\
    time_ts nodeWithPerfHooks afterSuspend afterSuspend = Normal ex2 /\
    Exports.usingPerformanceAPI ex1 = Exports.usingPerformanceAPI ex2 /\
    Exports.timestampInSeconds ex1 = Exports.timestampInSeconds ex2.
Proof.
  split; [reflexivity|].
  destruct (source_selection_ignores_load_instant nodeWithPerfHooks
              atLoad later afterSuspend afterSuspend)
    as (ex1 & ex2 & H1 & H2 & Hflag & Hsame).
  exists ex1, ex2.
  split; [exact H1|]. split; [exact H2|]. split; [exact Hflag|].
  apply Hsame. left. reflexivity.
Defined.

Lemma server_handle_bound_unchanged_witness :
  isNodeEnv nodeWithPerfHooks = true /\
  exists ex,
    time_ts nodeWithPerfHooks afterClockSetBack later = Normal ex /\
    Exports.usingPerformanceAPI ex = true /\
    Exports.timestampInSeconds ex atLoad == 1700000000.
Proof.
  split; [reflexivity|].
  destruct (server_handle_bound_unchanged nodeWithPerfHooks afterClockSetBack later
              _ {| now := hrtime_now; timeOrigin := 1699999999000 |}
              eq_refl eq_refl eq_refl)
    as (_ & ex & Hload & Hflag & Hts).
  exists ex. split; [exact Hload|]. split; [exact Hflag|].
  rewrite Hts. reflexivity.
Defined.
